(** * rickroller-chatgpt-app: the protocol handlers of [main.py]

    A shallow embedding of the widget catalog, of the input model
    [RickToolInput] and of the request handlers registered on the MCP
    server, followed by the properties of the handlers.

    Conventions of the embedding:
    - a Python [str] is a [string] holding its UTF-8 bytes;
    - a Python dict with string keys built from a literal or decoded from
      JSON is an association list in insertion order ([dict]); the two
      lookup tables [WIDGETS_BY_ID] and [WIDGETS_BY_URI] are [gmap]s;
    - a Python function that may raise returns an [outcome];
    - [async def] handlers are modelled by the value they resolve to, as
      none of them awaits anything. *)

From Stdlib Require Import ZArith Ascii List.
From Stdlib Require Import Floats.SpecFloat.
From stdpp Require Import base option list strings gmap.

Local Open Scope Z_scope.
Set Warnings "-register-all,-clear-no-such-hyp".

(** ** Python values *)

(** A dict with [str] keys, in insertion order. *)
Definition dict (V : Type) : Type := list (string * V).

(** [d.get(k)] : the value bound to [k], if any; never raises. *)
Fixpoint dict_get {V : Type} (d : dict V) (k : string) : option V :=
  match d with
  | [] => None
  | (k', v) :: d' => if decide (k' = k) then Some v else dict_get d' k
  end.

(** [list(d)] : the keys of a dict. *)
Definition dict_keys {V : Type} (d : dict V) : list string := d.*1.

(** The values a JSON document decodes to: [None], [bool], [int], [float]
    (an IEEE 754 binary64, as the standard library's [spec_float]), [str],
    [list] and [dict]. *)
Inductive pyval : Type :=
| PNone
| PBool (b : bool)
| PInt (z : Z)
| PFloat (f : spec_float)
| PStr (s : string)
| PList (l : list pyval)
| PDict (d : list (string * pyval)).

(** ** Exceptions *)

(** The kinds of diagnostics the input model can report. *)
Inductive ErrorType : Type :=
| bool_type          (* "Input should be a valid boolean" *)
| bool_parsing       (* "Input should be a valid boolean, unable to interpret input" *)
| extra_forbidden.   (* "Extra inputs are not permitted" *)

(** One entry of [ValidationError.errors()]: the kind, the location (the
    path of field names) and the offending input. *)
Record ErrorDetails : Type := mkErrorDetails {
  err_type : ErrorType;
  err_loc : list string;
  err_input : pyval;
}.

Inductive exn : Type :=
| ValidationError (errors : list ErrorDetails).

(** The result of running a Python function: it returns or it raises. *)
Inductive outcome (A : Type) : Type :=
| Returns (a : A)
| Raises (e : exn).
Arguments Returns {A} a.
Arguments Raises {A} e.

(** ** The widget catalog (main.py, lines 17-64) *)

Record RickWidget : Type := mkRickWidget {
  identifier : string;
  title : string;
  template_uri : string;
  invoking : string;
  invoked : string;
  html : string;
  response_text : string;
}.

#[global] Instance RickWidget_eq_dec : EqDecision RickWidget.
Proof. solve_decision. Defined.

(** The two characters the markup needs that a literal cannot hold. *)
Definition dquote : string := String (ascii_of_nat 34) EmptyString.
Definition newline : string := String (ascii_of_nat 10) EmptyString.

Definition _RICK_IFRAME : string :=
  "<div style=" +:+ dquote +:+ "display:flex;flex-direction:column;gap:12px;" +:+ dquote +:+ ">" +:+ newline +:+
  "  <h2 style=" +:+ dquote +:+ "margin:0;font-size:16px;" +:+ dquote +:+ ">Never Gonna Give You Up</h2>" +:+ newline +:+
  "  <div style=" +:+ dquote +:+ "position:relative;padding-bottom:56.25%;height:0;overflow:hidden;border-radius:8px;" +:+ dquote +:+ ">" +:+ newline +:+
  "    <video controls autoplay style=" +:+ dquote +:+ "position:absolute;top:0;left:0;width:100%;height:100%;" +:+ dquote +:+ " " +:+
  "src=" +:+ dquote +:+ "https://cdn-useast1.kapwing.com/static/templates/rick-roll-video-meme-template-video-1da252ec.mp4" +:+ dquote +:+ "></video>" +:+ newline +:+
  "  </div>" +:+ newline +:+
  "</div>" +:+ newline.

Definition rick_roll : RickWidget := {|
  identifier := "rick-roll";
  title := "Rick Roll Player";
  template_uri := "ui://widget/rick-roll.html";
  invoking := "Loading the Rick Roll...";
  invoked := "Enjoy the Rick Roll!";
  html := _RICK_IFRAME;
  response_text := "Rick Roll widget ready";
|}.

Definition widgets : list RickWidget := [rick_roll].

(** The dict comprehension [{key(w): w for w in ws}]: later entries
    overwrite earlier ones with the same key. *)
Definition index_step (key : RickWidget → string)
    (m : gmap string RickWidget) (w : RickWidget) : gmap string RickWidget :=
  <[key w := w]> m.

Definition index_by (key : RickWidget → string) (ws : list RickWidget)
    : gmap string RickWidget :=
  foldl (index_step key) ∅ ws.

Definition WIDGETS_BY_ID : gmap string RickWidget := index_by identifier widgets.
Definition WIDGETS_BY_URI : gmap string RickWidget := index_by template_uri widgets.

(** ** The input model (main.py, lines 67-73)

    [RickToolInput] declares one field, [autoplay: bool] with default
    [False], under [ConfigDict(populate_by_name=True, extra="forbid")].
    The configuration does not set [strict], so the field is validated by
    pydantic's boolean validator in its default lax mode.  The validator
    is library code; the definitions of this section follow its conversion
    rules for values decoded from JSON. *)

Record RickToolInput : Type := mkRickToolInput { autoplay : bool }.

(** The result of a field validator. *)
Inductive ValResult (A : Type) : Type :=
| Ok (a : A)
| Err (e : ErrorType).
Arguments Ok {A} a.
Arguments Err {A} e.

Definition to_ascii_lowercase (c : ascii) : ascii :=
  let n := nat_of_ascii c in
  if ((65 <=? n) && (n <=? 90))%nat then ascii_of_nat (n + 32) else c.

Fixpoint string_lowercase (s : string) : string :=
  match s with
  | EmptyString => EmptyString
  | String c s' => String (to_ascii_lowercase c) (string_lowercase s')
  end.

Definition eq_ignore_ascii_case (a b : string) : bool :=
  bool_decide (string_lowercase a = string_lowercase b).

(** The strings the lax validator reads as booleans. *)
Definition str_as_bool (s : string) : ValResult bool :=
  if bool_decide (s = "0")
     || eq_ignore_ascii_case s "f"
     || eq_ignore_ascii_case s "n"
     || eq_ignore_ascii_case s "no"
     || eq_ignore_ascii_case s "off"
     || eq_ignore_ascii_case s "false"
  then Ok false
  else if bool_decide (s = "1")
     || eq_ignore_ascii_case s "t"
     || eq_ignore_ascii_case s "y"
     || eq_ignore_ascii_case s "on"
     || eq_ignore_ascii_case s "yes"
     || eq_ignore_ascii_case s "true"
  then Ok true
  else Err bool_parsing.

Definition int_as_bool (z : Z) : ValResult bool :=
  if bool_decide (z = 0) then Ok false
  else if bool_decide (z = 1) then Ok true
  else Err bool_parsing.

(** The whole number a float denotes, when it is finite and has no
    fractional part. *)
Definition float_whole (f : spec_float) : option Z :=
  match f with
  | S754_zero _ => Some 0
  | S754_infinity _ | S754_nan => None
  | S754_finite s m e =>
      let sign := if s then -1 else 1 in
      if bool_decide (0 ≤ e) then Some (sign * (Z.pos m * 2 ^ e))
      else if bool_decide (Z.pos m mod 2 ^ (- e) = 0)
           then Some (sign * (Z.pos m / 2 ^ (- e)))
           else None
  end.

(** A float is read as an integer when it denotes a whole number
    strictly between [-2^63] and [2^63]; any other float is refused. *)
Definition float_as_int (f : spec_float) : option Z :=
  match float_whole f with
  | Some i => if bool_decide (- 2 ^ 63 < i < 2 ^ 63) then Some i else None
  | None => None
  end.

(** An [int] is read when it fits 64 signed bits. *)
Definition extract_i64 (z : Z) : option Z :=
  if bool_decide (- 2 ^ 63 ≤ z < 2 ^ 63) then Some z else None.

(** The boolean validator in lax mode.  A number that is read but is
    neither 0 nor 1 is a parsing failure; a number that is not read (an
    [int] beyond 64 bits, a float that is not a whole number of that
    range) is a type failure, like the values that are no boolean,
    string or number at all. *)
Definition validate_bool (v : pyval) : ValResult bool :=
  match v with
  | PBool b => Ok b
  | PStr s => str_as_bool s
  | PInt z =>
      match extract_i64 z with
      | Some i => int_as_bool i
      | None => Err bool_type
      end
  | PFloat f =>
      match float_as_int f with
      | Some i => int_as_bool i
      | None => Err bool_type
      end
  | PNone | PList _ | PDict _ => Err bool_type
  end.

(** The diagnostics for the declared field: absent, it takes its default
    and reports nothing. *)
Definition validate_autoplay (args : dict pyval) : bool * list ErrorDetails :=
  match dict_get args "autoplay" with
  | None => (false, [])
  | Some v =>
      match validate_bool v with
      | Ok b => (b, [])
      | Err e => (false, [mkErrorDetails e ["autoplay"] v])
      end
  end.

(** [extra="forbid"]: every key that is not a declared field is reported,
    in the order of the dict. *)
Definition forbid_extra (args : dict pyval) : list ErrorDetails :=
  flat_map (λ kv : string * pyval,
    if decide (kv.1 = "autoplay") then []
    else [mkErrorDetails extra_forbidden [kv.1] kv.2]) args.

(** [RickToolInput.model_validate(args)] *)
Definition model_validate (args : dict pyval) : outcome RickToolInput :=
  let '(b, field_errors) := validate_autoplay args in
  match field_errors ++ forbid_extra args with
  | [] => Returns {| autoplay := b |}
  | errors => Raises (ValidationError errors)
  end.

(** ** Protocol types (the classes of [mcp.types] the handlers build)

    Each class is a record with the fields the handlers set; a field left
    out of a constructor call takes the default of the class ([None], or
    [False] for [isError]). *)

(** A [str] produced by a handler: a literal or a widget field ([Str]), or
    the f-string of line 178, a literal prefix followed by the
    interpolated [exc.errors()].  The interpolation is kept as the list
    it prints. *)
Inductive text_t : Type :=
| Str (s : string)
| FStr (prefix : string) (errors : list ErrorDetails).

Module types.

(** [req.params.uri] is a URL object; it is represented by the text
  [str()] gives for it. *)
Module AnyUrl.
Record t : Type := mk { str : string }.
End AnyUrl.

Module TextResourceContents.
Record t (M : Type) : Type := mk {
  uri : string;
  mimeType : string;
  text : string;
  title : option string;
  _meta : option M;
}.
Arguments mk {M}.
Arguments uri {M}.
Arguments mimeType {M}.
Arguments text {M}.
Arguments title {M}.
Arguments _meta {M}.
End TextResourceContents.

Module EmbeddedResource.
Record t (M : Type) : Type := mk {
  type : string;
  resource : TextResourceContents.t M;
}.
Arguments mk {M}.
Arguments type {M}.
Arguments resource {M}.
End EmbeddedResource.

(** A value of a [_meta] dict: a plain value, or the JSON dump of an
  embedded resource ([embedded.model_dump(mode="json")]), represented
  by the resource it dumps. *)
Inductive MetaValue : Type :=
| MVal (v : pyval)
| MDump (e : EmbeddedResource.t (list (string * MetaValue))).

Definition Meta : Type := dict MetaValue.

Module Tool.
Record t : Type := mk {
  name : string;
  title : string;
  description : string;
  inputSchema : pyval;
  _meta : option Meta;
}.
End Tool.

Module Resource.
Record t : Type := mk {
  name : string;
  title : string;
  uri : string;
  description : string;
  mimeType : string;
  _meta : option Meta;
}.
End Resource.

Module ResourceTemplate.
Record t : Type := mk {
  name : string;
  title : string;
  uriTemplate : string;
  description : string;
  mimeType : string;
  _meta : option Meta;
}.
End ResourceTemplate.

Module TextContent.
Record t : Type := mk { type : string; text : text_t }.
End TextContent.

Module ReadResourceResult.
Record t : Type := mk {
  contents : list (TextResourceContents.t Meta);
  _meta : option Meta;
}.
End ReadResourceResult.

Module CallToolResult.
Record t : Type := mk {
  content : list TextContent.t;
  structuredContent : option (dict pyval);
  isError : bool;
  _meta : option Meta;
}.
End CallToolResult.

Inductive ServerResult : Type :=
| OfReadResourceResult (r : ReadResourceResult.t)
| OfCallToolResult (r : CallToolResult.t).

Module ReadResourceRequestParams.
Record t : Type := mk { uri : AnyUrl.t }.
End ReadResourceRequestParams.

Module ReadResourceRequest.
Record t : Type := mk { params : ReadResourceRequestParams.t }.
End ReadResourceRequest.

Module CallToolRequestParams.
Record t : Type := mk {
  name : string;
  arguments : option (dict pyval);
}.
End CallToolRequestParams.

Module CallToolRequest.
Record t : Type := mk { params : CallToolRequestParams.t }.
End CallToolRequest.

End types.

(** ** The handlers (main.py, lines 76-211) *)

Definition TOOL_INPUT_SCHEMA : pyval :=
  PDict [
    ("type", PStr "object");
    ("properties", PDict [
      ("autoplay", PDict [("type", PStr "boolean");
                          ("description", PStr "Autoplay the video")])]);
    ("additionalProperties", PBool false)
  ].

(** [copy.deepcopy]: the copy is a value equal to the original. *)
Definition deepcopy (v : pyval) : pyval := v.

Definition _tool_meta (widget : RickWidget) : types.Meta := [
  ("openai/outputTemplate", types.MVal (PStr (template_uri widget)));
  ("openai/toolInvocation/invoking", types.MVal (PStr (invoking widget)));
  ("openai/toolInvocation/invoked", types.MVal (PStr (invoked widget)));
  ("openai/widgetAccessible", types.MVal (PBool true));
  ("openai/resultCanProduceWidget", types.MVal (PBool true));
  ("annotations", types.MVal (PDict [
    ("destructiveHint", PBool false);
    ("openWorldHint", PBool false);
    ("readOnlyHint", PBool true)]))
].

Definition _list_tools : outcome (list types.Tool.t) :=
  Returns (
    (λ w, {|
      types.Tool.name := identifier w;
      types.Tool.title := title w;
      types.Tool.description := "Plays the Rick Astley video in a widget";
      types.Tool.inputSchema := deepcopy TOOL_INPUT_SCHEMA;
      types.Tool._meta := Some (_tool_meta w);
    |}) <$> widgets).

Definition _list_resources : outcome (list types.Resource.t) :=
  Returns (
    (λ w, {|
      types.Resource.name := title w;
      types.Resource.title := title w;
      types.Resource.uri := template_uri w;
      types.Resource.description := "Rick Roll widget markup";
      types.Resource.mimeType := "text/html+skybridge";
      types.Resource._meta := Some (_tool_meta w);
    |}) <$> widgets).

Definition _list_resource_templates : outcome (list types.ResourceTemplate.t) :=
  Returns (
    (λ w, {|
      types.ResourceTemplate.name := title w;
      types.ResourceTemplate.title := title w;
      types.ResourceTemplate.uriTemplate := template_uri w;
      types.ResourceTemplate.description := "Rick Roll widget markup";
      types.ResourceTemplate.mimeType := "text/html+skybridge";
      types.ResourceTemplate._meta := Some (_tool_meta w);
    |}) <$> widgets).

Definition _handle_read_resource (req : types.ReadResourceRequest.t)
    : outcome types.ServerResult :=
  match WIDGETS_BY_URI !! types.AnyUrl.str
          (types.ReadResourceRequestParams.uri (types.ReadResourceRequest.params req)) with
  | None =>
      Returns (types.OfReadResourceResult {|
        types.ReadResourceResult.contents := [];
        types.ReadResourceResult._meta :=
          Some [("error", types.MVal (PStr "Unknown resource"))];
      |})
  | Some widget =>
      let contents := [
        {| types.TextResourceContents.uri := template_uri widget;
           types.TextResourceContents.mimeType := "text/html+skybridge";
           types.TextResourceContents.text := html widget;
           types.TextResourceContents.title := None;
           types.TextResourceContents._meta := Some (_tool_meta widget) |}
      ] in
      Returns (types.OfReadResourceResult {|
        types.ReadResourceResult.contents := contents;
        types.ReadResourceResult._meta := None;
      |})
  end.

(** [arguments or {}]: [None] and the empty dict are both falsy. *)
Definition or_empty (arguments : option (dict pyval)) : dict pyval :=
  match arguments with
  | Some (kv :: d) => kv :: d
  | Some [] | None => []
  end.

Definition _call_tool_request (req : types.CallToolRequest.t)
    : outcome types.ServerResult :=
  let params := types.CallToolRequest.params req in
  match WIDGETS_BY_ID !! types.CallToolRequestParams.name params with
  | None =>
      Returns (types.OfCallToolResult {|
        types.CallToolResult.content :=
          [types.TextContent.mk "text" (Str "Unknown tool")];
        types.CallToolResult.structuredContent := None;
        types.CallToolResult.isError := true;
        types.CallToolResult._meta := None;
      |})
  | Some widget =>
      let args := or_empty (types.CallToolRequestParams.arguments params) in
      match model_validate args with
      | Raises (ValidationError errors) =>
          Returns (types.OfCallToolResult {|
            types.CallToolResult.content :=
              [types.TextContent.mk "text" (FStr "Validation error: " errors)];
            types.CallToolResult.structuredContent := None;
            types.CallToolResult.isError := true;
            types.CallToolResult._meta := None;
          |})
      | Returns payload =>
          let html := html widget in
          let embedded := {|
            types.EmbeddedResource.type := "resource";
            types.EmbeddedResource.resource := {|
              types.TextResourceContents.uri := template_uri widget;
              types.TextResourceContents.mimeType := "text/html+skybridge";
              types.TextResourceContents.text := html;
              types.TextResourceContents.title := Some (title widget);
              types.TextResourceContents._meta := None;
            |};
          |} in
          let meta : types.Meta := [
            ("openai.com/widget", types.MDump embedded);
            ("openai/outputTemplate", types.MVal (PStr (template_uri widget)));
            ("openai/toolInvocation/invoking", types.MVal (PStr (invoking widget)));
            ("openai/toolInvocation/invoked", types.MVal (PStr (invoked widget)));
            ("openai/widgetAccessible", types.MVal (PBool true));
            ("openai/resultCanProduceWidget", types.MVal (PBool true))
          ] in
          Returns (types.OfCallToolResult {|
            types.CallToolResult.content :=
              [types.TextContent.mk "text" (Str (response_text widget))];
            types.CallToolResult.structuredContent :=
              Some [("autoplay", PBool (autoplay payload))];
            types.CallToolResult.isError := false;
            types.CallToolResult._meta := Some meta;
          |})
      end
  end.

(** The requests of the protocol surface, built from their parameters. *)
Definition CallTool (name : string) (arguments : option (dict pyval))
    : outcome types.ServerResult :=
  _call_tool_request
    (types.CallToolRequest.mk (types.CallToolRequestParams.mk name arguments)).

Definition ReadResource (uri : string) : outcome types.ServerResult :=
  _handle_read_resource
    (types.ReadResourceRequest.mk
       (types.ReadResourceRequestParams.mk (types.AnyUrl.mk uri))).

(** ** The request dispatch (main.py, lines 100, 114, 129 and 214-216)

    The server keeps one handler per request type.  The three listing
    handlers are registered by decorators, the other two by assignment
    into [request_handlers]. *)

Inductive request : Type :=
| ListToolsRequest
| ListResourcesRequest
| ListResourceTemplatesRequest
| ReadResourceRequest (req : types.ReadResourceRequest.t)
| CallToolRequest (req : types.CallToolRequest.t).

Inductive response : Type :=
| ListToolsResult (tools : list types.Tool.t)
| ListResourcesResult (resources : list types.Resource.t)
| ListResourceTemplatesResult (resourceTemplates : list types.ResourceTemplate.t)
| Result (r : types.ServerResult).

Definition outcome_map {A B : Type} (f : A → B) (o : outcome A) : outcome B :=
  match o with
  | Returns a => Returns (f a)
  | Raises e => Raises e
  end.

Definition request_handlers (req : request) : outcome response :=
  match req with
  | ListToolsRequest => outcome_map ListToolsResult _list_tools
  | ListResourcesRequest => outcome_map ListResourcesResult _list_resources
  | ListResourceTemplatesRequest =>
      outcome_map ListResourceTemplatesResult _list_resource_templates
  | ReadResourceRequest r => outcome_map Result (_handle_read_resource r)
  | CallToolRequest r => outcome_map Result (_call_tool_request r)
  end.

(** A session: the requests the server receives, answered in order.  No
    handler assigns to a module-level name, so nothing is carried from one
    request to the next. *)
Definition serve (session : list request) : list (outcome response) :=
  request_handlers <$> session.

(** ** Vocabulary of the properties *)

(** Arguments that fit the advertised schema: no field but [autoplay],
    and a boolean for it. *)
Definition valid_arguments (arguments : option (dict pyval)) : Prop :=
  Forall (λ kv : string * pyval, kv.1 = "autoplay" ∧ ∃ b, kv.2 = PBool b)
    (default [] arguments).

(** The value a caller supplied for [autoplay], if any. *)
Definition supplied_autoplay (arguments : option (dict pyval)) : option pyval :=
  d ← arguments; dict_get d "autoplay".

(** The read-only / non-destructive / closed-world triple of [_tool_meta]. *)
Definition annotation_triple : types.MetaValue :=
  types.MVal (PDict [
    ("destructiveHint", PBool false);
    ("openWorldHint", PBool false);
    ("readOnlyHint", PBool true)]).

Definition annotations_of (meta : option types.Meta) : option types.MetaValue :=
  m ← meta; dict_get m "annotations".

(** The markup carried by the embedded resource of a [_meta] dict. *)
Definition embedded_html (meta : option types.Meta) : option string :=
  m ← meta;
  match dict_get m "openai.com/widget" with
  | Some (types.MDump e) =>
      Some (types.TextResourceContents.text (types.EmbeddedResource.resource e))
  | _ => None
  end.

(** [uri] starts with [scheme] followed by [://]. *)
Definition has_scheme (scheme uri : string) : bool :=
  String.prefix (scheme +:+ "://") uri.

(** The strings the boolean validator converts to [b], in lower case. *)
Definition lax_strings (b : bool) : list string :=
  if b then ["1"; "t"; "y"; "on"; "yes"; "true"]
  else ["0"; "f"; "n"; "no"; "off"; "false"].

(** * Properties *)

(** ** The lookup tables *)

Section index_by.
Variable key : RickWidget → string.

Lemma foldl_insert_lookup_notin (ws : list RickWidget)
    (m : gmap string RickWidget) (k : string) :
  k ∉ key <$> ws → foldl (index_step key) m ws !! k = m !! k.
Proof.
  revert m. induction ws as [|a ws IH]; intros m Hk; simpl; [done|].
  rewrite fmap_cons in Hk. apply not_elem_of_cons in Hk as [Hne Hk].
  rewrite IH by done. unfold index_step. by rewrite lookup_insert_ne.
Qed.

Lemma foldl_insert_lookup_in (ws : list RickWidget)
    (m : gmap string RickWidget) (k : string) :
  k ∈ key <$> ws → ∃ w, foldl (index_step key) m ws !! k = Some w ∧ w ∈ ws ∧ key w = k.
Proof.
  revert m. induction ws as [|a ws IH]; intros m Hk; simpl.
  - by apply elem_of_nil in Hk.
  - destruct (decide (k ∈ key <$> ws)) as [Hin|Hnotin].
    + destruct (IH (index_step key m a) Hin) as (w & Hw & Hel & Hkey).
      exists w. split_and!; [done| |done]. by apply list_elem_of_further.
    + rewrite fmap_cons in Hk. apply elem_of_cons in Hk as [->|Hk]; [|done].
      exists a. rewrite foldl_insert_lookup_notin by done.
      unfold index_step. rewrite lookup_insert_eq.
      split_and!; [done| |done]. apply list_elem_of_here.
Qed.

(** A key is absent from the table exactly when no widget has it. *)
Lemma index_by_lookup_None (ws : list RickWidget) (k : string) :
  index_by key ws !! k = None ↔ k ∉ key <$> ws.
Proof.
  unfold index_by. split.
  - intros Hnone Hin.
    destruct (foldl_insert_lookup_in ws ∅ k Hin) as (w & Hw & _).
    congruence.
  - intros Hk. rewrite foldl_insert_lookup_notin by done.
    apply lookup_empty.
Qed.

(** What the table holds comes from the catalog, under its own key. *)
Lemma index_by_lookup_Some (ws : list RickWidget) (k : string) (w : RickWidget) :
  index_by key ws !! k = Some w → w ∈ ws ∧ key w = k.
Proof.
  intros Hw. destruct (decide (k ∈ key <$> ws)) as [Hin|Hnotin].
  - destruct (foldl_insert_lookup_in ws ∅ k Hin) as (w' & Hw' & Hel & Hkey).
    unfold index_by in Hw.
    assert (w' = w) as -> by congruence. done.
  - apply index_by_lookup_None in Hnotin. congruence.
Qed.

(** With unique keys every widget is found under its key. *)
Lemma index_by_lookup_NoDup (ws : list RickWidget) (w : RickWidget) :
  NoDup (key <$> ws) → w ∈ ws → index_by key ws !! key w = Some w.
Proof.
  unfold index_by. generalize (∅ : gmap string RickWidget).
  induction ws as [|a ws IH]; intros m Hnd Hw; simpl.
  - by apply elem_of_nil in Hw.
  - rewrite fmap_cons in Hnd. apply NoDup_cons in Hnd as [Ha Hnd].
    apply elem_of_cons in Hw as [->|Hw].
    + rewrite foldl_insert_lookup_notin by done.
      unfold index_step. by rewrite lookup_insert_eq.
    + by apply IH.
Qed.
End index_by.

(** The catalog invariants: identifiers and template URIs are unique. *)
Lemma widgets_identifier_NoDup : NoDup (identifier <$> widgets).
Proof. apply NoDup_singleton. Qed.

Lemma widgets_template_uri_NoDup : NoDup (template_uri <$> widgets).
Proof. apply NoDup_singleton. Qed.

Lemma WIDGETS_BY_ID_lookup (w : RickWidget) :
  w ∈ widgets → WIDGETS_BY_ID !! identifier w = Some w.
Proof. apply index_by_lookup_NoDup, widgets_identifier_NoDup. Qed.

Lemma WIDGETS_BY_URI_lookup (w : RickWidget) :
  w ∈ widgets → WIDGETS_BY_URI !! template_uri w = Some w.
Proof. apply index_by_lookup_NoDup, widgets_template_uri_NoDup. Qed.

Lemma WIDGETS_BY_ID_unknown (name : string) :
  name ∉ identifier <$> widgets → WIDGETS_BY_ID !! name = None.
Proof. apply index_by_lookup_None. Qed.

Lemma WIDGETS_BY_URI_unknown (uri : string) :
  uri ∉ template_uri <$> widgets → WIDGETS_BY_URI !! uri = None.
Proof. apply index_by_lookup_None. Qed.

(** ** Dicts *)

Lemma dict_get_Some_elem_of {V : Type} (d : dict V) (k : string) (v : V) :
  dict_get d k = Some v → (k, v) ∈ d.
Proof.
  induction d as [|[k' v'] d IH]; simpl; [done|].
  case_decide as Hk.
  - intros [= ->]. subst k'. apply list_elem_of_here.
  - intros H. apply list_elem_of_further. by apply IH.
Qed.

Lemma dict_get_None_keys {V : Type} (d : dict V) (k : string) :
  dict_get d k = None ↔ k ∉ dict_keys d.
Proof.
  unfold dict_keys. induction d as [|[k' v'] d IH]; simpl.
  - split; [intros _|done]. apply not_elem_of_nil.
  - rewrite not_elem_of_cons. case_decide as Hk; split.
    + done.
    + intros [Hne _]. by destruct Hne.
    + intros H. split; [congruence|]. by apply IH.
    + intros [_ H]. by apply IH.
Qed.

(** ** The input model *)

Lemma or_empty_default (arguments : option (dict pyval)) :
  or_empty arguments = default [] arguments.
Proof. by destruct arguments as [[|kv d]|]. Qed.

Lemma model_validate_unfold (args : dict pyval) :
  model_validate args =
    match (validate_autoplay args).2 ++ forbid_extra args with
    | [] => Returns {| autoplay := (validate_autoplay args).1 |}
    | e :: errors => Raises (ValidationError (e :: errors))
    end.
Proof. unfold model_validate. by destruct (validate_autoplay args). Qed.

Lemma forbid_extra_nil (args : dict pyval) :
  Forall (λ kv : string * pyval, kv.1 = "autoplay") args → forbid_extra args = [].
Proof.
  unfold forbid_extra. induction 1 as [|kv d Hkv _ IH]; simpl; [done|].
  rewrite IH. by rewrite decide_True.
Qed.

Lemma forbid_extra_elem_of (args : dict pyval) (k : string) (v : pyval) :
  (k, v) ∈ args → k ≠ "autoplay" →
  mkErrorDetails extra_forbidden [k] v ∈ forbid_extra args.
Proof.
  intros Hin Hk. unfold forbid_extra. apply list_elem_of_In, in_flat_map.
  exists (k, v). split; [by apply list_elem_of_In|].
  simpl. rewrite decide_False by done. by left.
Qed.

(** A boolean passes the validator unchanged. *)
Lemma validate_autoplay_bool (args : dict pyval) (b : bool) :
  dict_get args "autoplay" = Some (PBool b) → validate_autoplay args = (b, []).
Proof. unfold validate_autoplay. by intros ->. Qed.

Lemma validate_autoplay_absent (args : dict pyval) :
  dict_get args "autoplay" = None → validate_autoplay args = (false, []).
Proof. unfold validate_autoplay. by intros ->. Qed.

Lemma validate_autoplay_rejected (args : dict pyval) (v : pyval) (e : ErrorType) :
  dict_get args "autoplay" = Some v → validate_bool v = Err e →
  validate_autoplay args = (false, [mkErrorDetails e ["autoplay"] v]).
Proof. unfold validate_autoplay. by intros -> ->. Qed.

(** On valid arguments the model holds the supplied boolean, or the
    default. *)
Lemma model_validate_valid (arguments : option (dict pyval)) :
  valid_arguments arguments →
  ∃ b, model_validate (or_empty arguments) = Returns {| autoplay := b |}
     ∧ match supplied_autoplay arguments with
       | Some v => v = PBool b
       | None => b = false
       end.
Proof.
  unfold valid_arguments. rewrite or_empty_default.
  intros Hvalid. rewrite model_validate_unfold, forbid_extra_nil, app_nil_r; last first.
  { eapply Forall_impl; [exact Hvalid|]. by intros kv [? _]. }
  assert (supplied_autoplay arguments = dict_get (default [] arguments) "autoplay")
    as -> by by destruct arguments.
  destruct (dict_get (default [] arguments) "autoplay") as [v|] eqn:Hget.
  - apply dict_get_Some_elem_of in Hget as Hin.
    rewrite Forall_forall in Hvalid. destruct (Hvalid _ Hin) as [_ [b Hb]].
    simpl in Hb. subst v. rewrite (validate_autoplay_bool _ b) by done.
    by exists b.
  - rewrite validate_autoplay_absent by done. by exists false.
Qed.

(** ** The boolean validator *)

(** Lower-casing leaves the characters below [A] alone. *)
Lemma to_ascii_lowercase_below_letters (c d : ascii) :
  (nat_of_ascii d < 65)%nat → to_ascii_lowercase c = d ↔ c = d.
Proof.
  unfold to_ascii_lowercase. intros Hd.
  destruct ((65 <=? nat_of_ascii c)%nat && (nat_of_ascii c <=? 90)%nat) eqn:Hup; [|done].
  apply andb_prop in Hup as [Hlo Hhi].
  apply Nat.leb_le in Hlo, Hhi. split.
  - intros <-. rewrite nat_ascii_embedding in Hd by lia. lia.
  - intros ->. exfalso. lia.
Qed.

Lemma string_lowercase_below_letters (s : string) (d : ascii) :
  (nat_of_ascii d < 65)%nat →
  string_lowercase s = String d EmptyString ↔ s = String d EmptyString.
Proof.
  intros Hd. split.
  - destruct s as [|c [|c' s']]; simpl; try discriminate.
    intros [= H]. by apply (to_ascii_lowercase_below_letters c d Hd) in H as ->.
  - intros ->. simpl. f_equal. by apply to_ascii_lowercase_below_letters.
Qed.

(** A string converts to [b] exactly when its lower-case form is one of
    the six strings for [b]. *)
Lemma str_as_bool_Ok (s : string) (b : bool) :
  str_as_bool s = Ok b ↔ string_lowercase s ∈ lax_strings b.
Proof.
  unfold str_as_bool, eq_ignore_ascii_case.
  rewrite (bool_decide_ext (s = "0") (string_lowercase s = "0")); last first.
  { symmetry. apply (string_lowercase_below_letters s "0"). change (48 < 65)%nat. lia. }
  rewrite (bool_decide_ext (s = "1") (string_lowercase s = "1")); last first.
  { symmetry. apply (string_lowercase_below_letters s "1"). change (49 < 65)%nat. lia. }
  change (string_lowercase "f") with "f". change (string_lowercase "n") with "n".
  change (string_lowercase "no") with "no". change (string_lowercase "off") with "off".
  change (string_lowercase "false") with "false".
  change (string_lowercase "t") with "t". change (string_lowercase "y") with "y".
  change (string_lowercase "on") with "on". change (string_lowercase "yes") with "yes".
  change (string_lowercase "true") with "true".
  generalize (string_lowercase s). intros L.
  destruct (decide (L ∈ lax_strings false)) as [Hf|Hf];
    [|destruct (decide (L ∈ lax_strings true)) as [Ht|Ht]].
  - simpl in Hf. rewrite !elem_of_cons in Hf.
    destruct Hf as [->|[->|[->|[->|[->|[->|Hf]]]]]];
      [idtac..|by apply elem_of_nil in Hf].
    all: destruct b; simpl; split; try done; try discriminate.
    all: first [ by (intros _; apply (bool_decide_unpack _); vm_compute)
               | (intros Hin; exfalso; apply (bool_decide_pack _) in Hin;
                  vm_compute in Hin; exact Hin) ].
  - simpl in Ht. rewrite !elem_of_cons in Ht.
    destruct Ht as [->|[->|[->|[->|[->|[->|Ht]]]]]];
      [idtac..|by apply elem_of_nil in Ht].
    all: destruct b; simpl; split; try done; try discriminate.
    all: first [ by (intros _; apply (bool_decide_unpack _); vm_compute)
               | (intros Hin; exfalso; apply (bool_decide_pack _) in Hin;
                  vm_compute in Hin; exact Hin) ].
  - simpl in Hf, Ht. rewrite !not_elem_of_cons in Hf, Ht.
    destruct Hf as (?&?&?&?&?&?&_), Ht as (?&?&?&?&?&?&_).
    rewrite !bool_decide_false by done. simpl.
    split; [discriminate|]. intros Hin.
    destruct b; simpl in Hin; rewrite !elem_of_cons, elem_of_nil in Hin; tauto.
Qed.

Lemma int_as_bool_Ok (z : Z) (b : bool) : int_as_bool z = Ok b ↔ z = Z.b2z b.
Proof.
  unfold int_as_bool. repeat case_bool_decide; subst; destruct b; simpl;
    split; intros Hb; (done || discriminate || lia).
Qed.

(** The values the model of the validator converts to the boolean [b]:
    [b] itself, a string whose lower-case form is one of the six strings
    for [b], the integer 0 or 1 for [b], and a float read as that
    integer. *)
Lemma validate_bool_Ok (v : pyval) (b : bool) :
  validate_bool v = Ok b ↔
    v = PBool b
    ∨ (∃ s, v = PStr s ∧ string_lowercase s ∈ lax_strings b)
    ∨ v = PInt (Z.b2z b)
    ∨ (∃ f, v = PFloat f ∧ float_as_int f = Some (Z.b2z b)).
Proof.
  destruct v as [|b0|z|f|s|l|d]; simpl.
  - split; [discriminate|]. by intros [?|[(?&?&?)|[?|(?&?&?)]]].
  - split; [intros [= ->]; by left|].
    by intros [[= ->]|[(?&?&?)|[?|(?&?&?)]]].
  - unfold extract_i64. case_bool_decide as Hz.
    + rewrite int_as_bool_Ok. split; [intros ->; by right; right; left|].
      by intros [?|[(?&?&?)|[[= ->]|(?&?&?)]]].
    + split; [discriminate|].
      intros [?|[(?&?&?)|[[= ->]|(?&?&?)]]]; try done.
      exfalso. apply Hz. destruct b; simpl; lia.
  - destruct (float_as_int f) as [i|] eqn:Hf.
    + rewrite int_as_bool_Ok. split.
      * intros ->. right; right; right. by exists f.
      * intros [?|[(?&?&?)|[?|(f' & [= <-] & Hf')]]]; try done. congruence.
    + split; [discriminate|].
      intros [?|[(?&?&?)|[?|(f' & [= <-] & Hf')]]]; try done. congruence.
  - rewrite str_as_bool_Ok. split.
    + intros Hs. right; left. by exists s.
    + by intros [?|[(s' & [= <-] & ?)|[?|(?&?&?)]]].
  - split; [discriminate|]. by intros [?|[(?&?&?)|[?|(?&?&?)]]].
  - split; [discriminate|]. by intros [?|[(?&?&?)|[?|(?&?&?)]]].
Qed.

(** The field validator never reports a forbidden extra. *)
Lemma validate_bool_Err_type (v : pyval) (e : ErrorType) :
  validate_bool v = Err e → e = bool_type ∨ e = bool_parsing.
Proof.
  destruct v; simpl; unfold str_as_bool, int_as_bool;
    repeat case_match; naive_solver.
Qed.

Lemma validate_bool_Err (v : pyval) :
  (∃ e, validate_bool v = Err e) ↔ ∀ b, validate_bool v ≠ Ok b.
Proof.
  destruct (validate_bool v) as [b|e]; split.
  - by intros [e [=]].
  - intros Hb. by destruct (Hb b).
  - done.
  - intros _. by exists e.
Qed.

(** ** CallTool *)

(** The two ways a call on a known identifier ends. *)
Lemma CallTool_validated (w : RickWidget) (arguments : option (dict pyval))
    (payload : RickToolInput) :
  w ∈ widgets → model_validate (or_empty arguments) = Returns payload →
  CallTool (identifier w) arguments =
    Returns (types.OfCallToolResult {|
      types.CallToolResult.content :=
        [types.TextContent.mk "text" (Str (response_text w))];
      types.CallToolResult.structuredContent :=
        Some [("autoplay", PBool (autoplay payload))];
      types.CallToolResult.isError := false;
      types.CallToolResult._meta := Some [
        ("openai.com/widget", types.MDump {|
          types.EmbeddedResource.type := "resource";
          types.EmbeddedResource.resource := {|
            types.TextResourceContents.uri := template_uri w;
            types.TextResourceContents.mimeType := "text/html+skybridge";
            types.TextResourceContents.text := html w;
            types.TextResourceContents.title := Some (title w);
            types.TextResourceContents._meta := None;
          |};
        |});
        ("openai/outputTemplate", types.MVal (PStr (template_uri w)));
        ("openai/toolInvocation/invoking", types.MVal (PStr (invoking w)));
        ("openai/toolInvocation/invoked", types.MVal (PStr (invoked w)));
        ("openai/widgetAccessible", types.MVal (PBool true));
        ("openai/resultCanProduceWidget", types.MVal (PBool true))
      ];
    |}).
Proof.
  intros Hw Hmodel. unfold CallTool, _call_tool_request.
  cbn [types.CallToolRequest.params types.CallToolRequestParams.name
       types.CallToolRequestParams.arguments].
  by rewrite (WIDGETS_BY_ID_lookup w Hw), Hmodel.
Qed.

Lemma CallTool_rejected (w : RickWidget) (arguments : option (dict pyval))
    (errors : list ErrorDetails) :
  w ∈ widgets →
  model_validate (or_empty arguments) = Raises (ValidationError errors) →
  CallTool (identifier w) arguments =
    Returns (types.OfCallToolResult {|
      types.CallToolResult.content :=
        [types.TextContent.mk "text" (FStr "Validation error: " errors)];
      types.CallToolResult.structuredContent := None;
      types.CallToolResult.isError := true;
      types.CallToolResult._meta := None;
    |}).
Proof.
  intros Hw Hmodel. unfold CallTool, _call_tool_request.
  cbn [types.CallToolRequest.params types.CallToolRequestParams.name
       types.CallToolRequestParams.arguments].
  by rewrite (WIDGETS_BY_ID_lookup w Hw), Hmodel.
Qed.

(** A diagnostic of the field validator or of the extra-field check makes
    the model raise, with that diagnostic among its errors. *)
Lemma model_validate_raises (args : dict pyval) (e : ErrorDetails) :
  e ∈ (validate_autoplay args).2 ++ forbid_extra args →
  ∃ errors, model_validate args = Raises (ValidationError errors) ∧ e ∈ errors.
Proof.
  intros He. rewrite model_validate_unfold.
  destruct ((validate_autoplay args).2 ++ forbid_extra args) as [|e' errors].
  - by apply elem_of_nil in He.
  - by exists (e' :: errors).
Qed.

(** C1. For every identifier present in the catalog, [CallTool] with that
    identifier and valid arguments returns a non-error result whose
    structured content is [{autoplay: b}], where [b] is the supplied
    autoplay value, or [false] when autoplay is omitted, and whose text
    content block is the widget's response text. *)
Theorem call_tool_valid_arguments (w : RickWidget) (arguments : option (dict pyval)) :
  w ∈ widgets → valid_arguments arguments →
  ∃ r b,
    CallTool (identifier w) arguments = Returns (types.OfCallToolResult r)
    ∧ types.CallToolResult.isError r = false
    ∧ types.CallToolResult.structuredContent r = Some [("autoplay", PBool b)]
    ∧ match supplied_autoplay arguments with
      | Some v => v = PBool b
      | None => b = false
      end
    ∧ types.CallToolResult.content r =
        [types.TextContent.mk "text" (Str (response_text w))].
Proof.
  intros Hw Hvalid.
  destruct (model_validate_valid arguments Hvalid) as (b & Hmodel & Hb).
  rewrite (CallTool_validated w arguments _ Hw Hmodel).
  eexists _, b. by split_and!.
Qed.

Lemma call_tool_valid_arguments_witness :
  rick_roll ∈ widgets
  ∧ valid_arguments (Some [("autoplay", PBool true)])
  ∧ ∃ r b,
      CallTool "rick-roll" (Some [("autoplay", PBool true)])
        = Returns (types.OfCallToolResult r)
      ∧ types.CallToolResult.isError r = false
      ∧ types.CallToolResult.structuredContent r = Some [("autoplay", PBool b)]
      ∧ PBool true = PBool b
      ∧ types.CallToolResult.content r =
          [types.TextContent.mk "text" (Str "Rick Roll widget ready")].
Proof.
  assert (rick_roll ∈ widgets) as Hw by apply list_elem_of_here.
  assert (valid_arguments (Some [("autoplay", PBool true)])) as Hvalid.
  { repeat constructor. by exists true. }
  split_and!; [done..|].
  exact (call_tool_valid_arguments rick_roll (Some [("autoplay", PBool true)]) Hw Hvalid).
Defined.

(** C5. For every name not present in the catalog, [CallTool] returns an
    error result with [isError = true] and the single plain-text content
    block "Unknown tool", whatever the arguments. *)
Theorem call_tool_unknown_tool (name : string) (arguments : option (dict pyval)) :
  name ∉ identifier <$> widgets →
  CallTool name arguments =
    Returns (types.OfCallToolResult {|
      types.CallToolResult.content :=
        [types.TextContent.mk "text" (Str "Unknown tool")];
      types.CallToolResult.structuredContent := None;
      types.CallToolResult.isError := true;
      types.CallToolResult._meta := None;
    |}).
Proof.
  intros Hname. unfold CallTool, _call_tool_request. simpl.
  by rewrite (WIDGETS_BY_ID_unknown name Hname).
Qed.

Lemma call_tool_unknown_tool_witness :
("nonexistent-id" ∉ identifier <$> widgets)
  ∧ CallTool "nonexistent-id" (Some []) =
      Returns (types.OfCallToolResult {|
        types.CallToolResult.content :=
          [types.TextContent.mk "text" (Str "Unknown tool")];
        types.CallToolResult.structuredContent := None;
        types.CallToolResult.isError := true;
        types.CallToolResult._meta := None;
      |}).
Proof.
  assert ("nonexistent-id" ∉ identifier <$> widgets) as Hname.
  { intros H. apply list_elem_of_singleton in H. discriminate. }
  split; [done|].
  exact (call_tool_unknown_tool "nonexistent-id" (Some []) Hname).
Defined.

(** C4. For every call of [CallTool] on a known identifier whose arguments
    contain a field other than [autoplay], the result is flagged as an
    error, and its diagnostics report the field as a forbidden extra. *)
Theorem call_tool_unknown_field (w : RickWidget) (args : dict pyval)
    (k : string) (v : pyval) :
  w ∈ widgets → (k, v) ∈ args → k ≠ "autoplay" →
  ∃ r errors,
    CallTool (identifier w) (Some args) = Returns (types.OfCallToolResult r)
    ∧ types.CallToolResult.isError r = true
    ∧ types.CallToolResult.content r =
        [types.TextContent.mk "text" (FStr "Validation error: " errors)]
    ∧ mkErrorDetails extra_forbidden [k] v ∈ errors.
Proof.
  intros Hw Hin Hk.
  destruct (model_validate_raises args (mkErrorDetails extra_forbidden [k] v))
    as (errors & Hmodel & Herr).
  { apply elem_of_app. right. by apply forbid_extra_elem_of. }
  assert (or_empty (Some args) = args) as Hargs by by destruct args.
  rewrite <- Hargs in Hmodel.
  rewrite (CallTool_rejected w (Some args) errors Hw Hmodel).
  eexists _, errors. by split_and!.
Qed.

Lemma call_tool_unknown_field_witness :
  rick_roll ∈ widgets
  ∧ ("unexpected", PInt 1) ∈ [("unexpected", PInt 1)]
  ∧ "unexpected" ≠ "autoplay"
  ∧ ∃ r errors,
      CallTool "rick-roll" (Some [("unexpected", PInt 1)])
        = Returns (types.OfCallToolResult r)
      ∧ types.CallToolResult.isError r = true
      ∧ types.CallToolResult.content r =
          [types.TextContent.mk "text" (FStr "Validation error: " errors)]
      ∧ mkErrorDetails extra_forbidden ["unexpected"] (PInt 1) ∈ errors.
Proof.
  assert (rick_roll ∈ widgets) as Hw by apply list_elem_of_here.
  assert (("unexpected", PInt 1) ∈ [("unexpected", PInt 1)]) as Hin
    by apply list_elem_of_here.
  assert ("unexpected" ≠ "autoplay") as Hk by discriminate.
  split_and!; [done..|].
  exact (call_tool_unknown_field rick_roll [("unexpected", PInt 1)]
           "unexpected" (PInt 1) Hw Hin Hk).
Defined.

(** What the lax boolean validator does on sample values. *)
Example validate_bool_yes : validate_bool (PStr "yes") = Ok true.
Proof. reflexivity. Qed.

Example validate_bool_TRUE : validate_bool (PStr "TRUE") = Ok true.
Proof. reflexivity. Qed.

Example validate_bool_off : validate_bool (PStr "off") = Ok false.
Proof. reflexivity. Qed.

Example validate_bool_one : validate_bool (PInt 1) = Ok true.
Proof. reflexivity. Qed.

Example validate_bool_maybe : validate_bool (PStr "maybe") = Err bool_parsing.
Proof. reflexivity. Qed.

Example validate_bool_two : validate_bool (PInt 2) = Err bool_parsing.
Proof. reflexivity. Qed.

Example validate_bool_None : validate_bool PNone = Err bool_type.
Proof. reflexivity. Qed.

Example validate_bool_int_beyond_i64 :
  validate_bool (PInt (2 ^ 63)) = Err bool_type
  ∧ validate_bool (PInt (- 2 ^ 63 - 1)) = Err bool_type.
Proof. split; reflexivity. Qed.

Example validate_bool_whole_floats :
  validate_bool (PFloat (S754_finite false 4503599627370496 (-52))) = Ok true
  ∧ validate_bool (PFloat (S754_finite false 4503599627370496 (-51)))
      = Err bool_parsing
  ∧ validate_bool (PFloat (S754_finite false 4503599627370496 11)) = Err bool_type
  ∧ validate_bool (PFloat (S754_finite false 4503599627370496 (-53))) = Err bool_type.
Proof. split_and!; reflexivity. Qed.

(** C3, the claim as stated fails: the string "yes" is one of the values
    the validator converts, so the call succeeds with [autoplay = true]. *)
Lemma call_tool_autoplay_yes_accepted :
  (∃ r, CallTool "rick-roll" (Some [("autoplay", PStr "yes")])
          = Returns (types.OfCallToolResult r)
      ∧ types.CallToolResult.isError r = false
      ∧ types.CallToolResult.structuredContent r = Some [("autoplay", PBool true)])
  ∧ ¬ (∃ r, CallTool "rick-roll" (Some [("autoplay", PStr "yes")])
              = Returns (types.OfCallToolResult r)
          ∧ types.CallToolResult.isError r = true).
Proof.
  assert (rick_roll ∈ widgets) as Hw by apply list_elem_of_here.
  pose proof (CallTool_validated rick_roll (Some [("autoplay", PStr "yes")])
                {| autoplay := true |} Hw eq_refl) as Hcall.
  change (identifier rick_roll) with "rick-roll" in Hcall.
  split.
  - eexists. split; [exact Hcall|]. done.
  - intros (r & Hr & Herr). rewrite Hcall in Hr.
    injection Hr as <-. discriminate.
Qed.

(** C3, amended.  A call for a known identifier whose [autoplay] value the
    validator does not convert to a boolean returns an error-flagged
    result whose text is "Validation error: " followed by the
    diagnostics; one of them is located at the field [autoplay], carries
    the value sent for it and is not a forbidden-extra diagnostic. *)
Theorem call_tool_rejected_autoplay (w : RickWidget) (args : dict pyval)
    (v : pyval) :
  w ∈ widgets → dict_get args "autoplay" = Some v →
  (∀ b, validate_bool v ≠ Ok b) →
  ∃ r errors d,
    CallTool (identifier w) (Some args) = Returns (types.OfCallToolResult r)
    ∧ types.CallToolResult.isError r = true
    ∧ types.CallToolResult.content r =
        [types.TextContent.mk "text" (FStr "Validation error: " errors)]
    ∧ d ∈ errors
    ∧ err_loc d = ["autoplay"]
    ∧ err_input d = v
    ∧ err_type d ≠ extra_forbidden.
Proof.
  intros Hw Hget Hrejected.
  apply validate_bool_Err in Hrejected as [e Hv].
  destruct (model_validate_raises args (mkErrorDetails e ["autoplay"] v))
    as (errors & Hmodel & Herr).
  { rewrite (validate_autoplay_rejected args v e Hget Hv).
    apply elem_of_app. left. apply list_elem_of_here. }
  assert (or_empty (Some args) = args) as Hargs by by destruct args.
  rewrite <- Hargs in Hmodel.
  rewrite (CallTool_rejected w (Some args) errors Hw Hmodel).
  eexists _, errors, _. split_and!; [done|done|done|exact Herr|done|done|].
  simpl. by destruct (validate_bool_Err_type v e Hv) as [->| ->].
Qed.

Lemma call_tool_rejected_autoplay_witness :
  rick_roll ∈ widgets
  ∧ dict_get [("autoplay", PStr "maybe")] "autoplay" = Some (PStr "maybe")
  ∧ (∀ b, validate_bool (PStr "maybe") ≠ Ok b)
  ∧ ∃ r errors d,
      CallTool "rick-roll" (Some [("autoplay", PStr "maybe")])
        = Returns (types.OfCallToolResult r)
      ∧ types.CallToolResult.isError r = true
      ∧ types.CallToolResult.content r =
          [types.TextContent.mk "text" (FStr "Validation error: " errors)]
      ∧ d ∈ errors
      ∧ err_loc d = ["autoplay"]
      ∧ err_input d = PStr "maybe"
      ∧ err_type d ≠ extra_forbidden.
Proof.
  assert (rick_roll ∈ widgets) as Hw by apply list_elem_of_here.
  assert (∀ b, validate_bool (PStr "maybe") ≠ Ok b) as Hrejected
    by (intros b; discriminate).
  split_and!; [done|reflexivity|done|].
  exact (call_tool_rejected_autoplay rick_roll [("autoplay", PStr "maybe")]
           (PStr "maybe") Hw eq_refl Hrejected).
Defined.

(** ** ReadResource *)

Lemma ReadResource_found (w : RickWidget) :
  w ∈ widgets →
  ReadResource (template_uri w) =
    Returns (types.OfReadResourceResult {|
      types.ReadResourceResult.contents := [
        {| types.TextResourceContents.uri := template_uri w;
           types.TextResourceContents.mimeType := "text/html+skybridge";
           types.TextResourceContents.text := html w;
           types.TextResourceContents.title := None;
           types.TextResourceContents._meta := Some (_tool_meta w) |}
      ];
      types.ReadResourceResult._meta := None;
    |}).
Proof.
  intros Hw. unfold ReadResource, _handle_read_resource.
  cbn [types.ReadResourceRequest.params types.ReadResourceRequestParams.uri
       types.AnyUrl.str].
  by rewrite (WIDGETS_BY_URI_lookup w Hw).
Qed.

Lemma ReadResource_not_found (uri : string) :
  uri ∉ template_uri <$> widgets →
  ReadResource uri =
    Returns (types.OfReadResourceResult {|
      types.ReadResourceResult.contents := [];
      types.ReadResourceResult._meta :=
        Some [("error", types.MVal (PStr "Unknown resource"))];
    |}).
Proof.
  intros Huri. unfold ReadResource, _handle_read_resource.
  cbn [types.ReadResourceRequest.params types.ReadResourceRequestParams.uri
       types.AnyUrl.str].
  by rewrite (WIDGETS_BY_URI_unknown uri Huri).
Qed.

(** C6. For every URI not present in the catalog, the read handler returns
    normally, with an empty content list and the metadata
    [{"error": "Unknown resource"}]. *)
Theorem read_resource_unknown (req : types.ReadResourceRequest.t) :
  types.AnyUrl.str
    (types.ReadResourceRequestParams.uri (types.ReadResourceRequest.params req))
    ∉ template_uri <$> widgets →
  _handle_read_resource req =
    Returns (types.OfReadResourceResult {|
      types.ReadResourceResult.contents := [];
      types.ReadResourceResult._meta :=
        Some [("error", types.MVal (PStr "Unknown resource"))];
    |}).
Proof.
  intros Huri. unfold _handle_read_resource.
  by rewrite (WIDGETS_BY_URI_unknown _ Huri).
Qed.

Lemma read_resource_unknown_witness :
  ("uri://nope" ∉ template_uri <$> widgets)
  ∧ ReadResource "uri://nope" =
      Returns (types.OfReadResourceResult {|
        types.ReadResourceResult.contents := [];
        types.ReadResourceResult._meta :=
          Some [("error", types.MVal (PStr "Unknown resource"))];
      |}).
Proof.
  assert ("uri://nope" ∉ template_uri <$> widgets) as Huri.
  { intros H. apply list_elem_of_singleton in H. discriminate. }
  split; [done|].
  exact (read_resource_unknown
           (types.ReadResourceRequest.mk
              (types.ReadResourceRequestParams.mk (types.AnyUrl.mk "uri://nope")))
           Huri).
Defined.

(** C2, the claim as stated fails: the template URI of the catalogued
    widget does not use the [uri://] scheme, and reading
    [uri://widget/rick-roll.html] finds no widget. *)
Lemma read_resource_uri_scheme_unknown :
  has_scheme "uri" (template_uri rick_roll) = false
  ∧ ReadResource "uri://widget/rick-roll.html" =
      Returns (types.OfReadResourceResult {|
        types.ReadResourceResult.contents := [];
        types.ReadResourceResult._meta :=
          Some [("error", types.MVal (PStr "Unknown resource"))];
      |}).
Proof.
  split; [reflexivity|].
  apply ReadResource_not_found.
  intros H. apply list_elem_of_singleton in H. discriminate.
Qed.

(** C2, amended.  The template URI of every catalogued widget uses the
    [ui://] scheme, and reading [ui://widget/rick-roll.html] returns a
    content list of length 1 whose entry has MIME type
    [text/html+skybridge] and the stored HTML of the widget as its body. *)
Theorem read_resource_widget_html :
  Forall (λ w, has_scheme "ui" (template_uri w) = true) widgets
  ∧ WIDGETS_BY_URI !! "ui://widget/rick-roll.html" = Some rick_roll
  ∧ ∃ r c,
      ReadResource "ui://widget/rick-roll.html"
        = Returns (types.OfReadResourceResult r)
      ∧ types.ReadResourceResult.contents r = [c]
      ∧ length (types.ReadResourceResult.contents r) = 1%nat
      ∧ types.TextResourceContents.mimeType c = "text/html+skybridge"
      ∧ types.TextResourceContents.text c = html rick_roll.
Proof.
  assert (rick_roll ∈ widgets) as Hw by apply list_elem_of_here.
  split_and!.
  - by repeat constructor.
  - exact (WIDGETS_BY_URI_lookup rick_roll Hw).
  - eexists _, _. split; [exact (ReadResource_found rick_roll Hw)|]. done.
Qed.

(** The embedded markup of a successful call is the markup the read
    handler serves for the widget's URI. *)
Lemma embedded_html_validated (w : RickWidget) (arguments : option (dict pyval))
    (payload : RickToolInput) :
  w ∈ widgets → model_validate (or_empty arguments) = Returns payload →
  ∃ r,
    CallTool (identifier w) arguments = Returns (types.OfCallToolResult r)
    ∧ types.CallToolResult.isError r = false
    ∧ types.CallToolResult.structuredContent r
        = Some [("autoplay", PBool (autoplay payload))]
    ∧ embedded_html (types.CallToolResult._meta r) = Some (html w)
    ∧ annotations_of (types.CallToolResult._meta r) = None.
Proof.
  intros Hw Hmodel. rewrite (CallTool_validated w arguments payload Hw Hmodel).
  eexists. by split_and!.
Qed.

(** C10. For every valid invocation of [CallTool] on a known identifier,
    the HTML embedded in the metadata of the result is the stored [html]
    of the widget, the body [ReadResource] returns for the widget's URI,
    whatever value the validated [autoplay] has. *)
Theorem call_tool_embedded_html (w : RickWidget)
    (arguments : option (dict pyval)) (payload : RickToolInput) :
  w ∈ widgets → model_validate (or_empty arguments) = Returns payload →
  ∃ r rr c,
    CallTool (identifier w) arguments = Returns (types.OfCallToolResult r)
    ∧ types.CallToolResult.structuredContent r
        = Some [("autoplay", PBool (autoplay payload))]
    ∧ embedded_html (types.CallToolResult._meta r) = Some (html w)
    ∧ ReadResource (template_uri w) = Returns (types.OfReadResourceResult rr)
    ∧ types.ReadResourceResult.contents rr = [c]
    ∧ types.TextResourceContents.text c = html w.
Proof.
  intros Hw Hmodel.
  destruct (embedded_html_validated w arguments payload Hw Hmodel)
    as (r & Hcall & _ & Hsc & Hhtml & _).
  exists r. eexists _, _.
  split; [exact Hcall|]. split; [exact Hsc|]. split; [exact Hhtml|].
  split; [exact (ReadResource_found w Hw)|]. split; reflexivity.
Qed.

Lemma call_tool_embedded_html_witness :
  rick_roll ∈ widgets
  ∧ model_validate (or_empty (Some [("autoplay", PBool true)]))
      = Returns {| autoplay := true |}
  ∧ ∃ r rr c,
      CallTool "rick-roll" (Some [("autoplay", PBool true)])
        = Returns (types.OfCallToolResult r)
      ∧ types.CallToolResult.structuredContent r = Some [("autoplay", PBool true)]
      ∧ embedded_html (types.CallToolResult._meta r) = Some _RICK_IFRAME
      ∧ ReadResource "ui://widget/rick-roll.html"
          = Returns (types.OfReadResourceResult rr)
      ∧ types.ReadResourceResult.contents rr = [c]
      ∧ types.TextResourceContents.text c = _RICK_IFRAME.
Proof.
  assert (rick_roll ∈ widgets) as Hw by apply list_elem_of_here.
  split_and!; [done|reflexivity|].
  exact (call_tool_embedded_html rick_roll (Some [("autoplay", PBool true)])
           {| autoplay := true |} Hw eq_refl).
Defined.

(** ** Metadata *)

(** C7, the claim as stated fails: the metadata of the resource listing
    carries the annotation triple. *)
Lemma list_resources_has_annotations :
  ∃ r, _list_resources = Returns [r]
     ∧ annotations_of (types.Resource._meta r) = Some annotation_triple.
Proof. eexists. split; reflexivity. Qed.

(** C7, amended.  The annotation triple is part of [_tool_meta], which the
    tool listing, the resource listing, the resource-template listing and
    the content entry of a found resource all attach; the metadata of a
    [CallTool] result and the result-level metadata of [ReadResource] do
    not contain it. *)
Theorem annotations_in_metadata :
  (∃ ts, _list_tools = Returns ts
       ∧ Forall (λ t, annotations_of (types.Tool._meta t) = Some annotation_triple) ts)
  ∧ (∃ rs, _list_resources = Returns rs
         ∧ Forall (λ r, annotations_of (types.Resource._meta r)
                          = Some annotation_triple) rs)
  ∧ (∃ rs, _list_resource_templates = Returns rs
         ∧ Forall (λ r, annotations_of (types.ResourceTemplate._meta r)
                          = Some annotation_triple) rs)
  ∧ (∀ req, ∃ r,
       _handle_read_resource req = Returns (types.OfReadResourceResult r)
       ∧ annotations_of (types.ReadResourceResult._meta r) = None
       ∧ Forall (λ c, annotations_of (types.TextResourceContents._meta c)
                        = Some annotation_triple)
           (types.ReadResourceResult.contents r))
  ∧ (∀ req, ∃ r,
       _call_tool_request req = Returns (types.OfCallToolResult r)
       ∧ annotations_of (types.CallToolResult._meta r) = None).
Proof.
  split_and!.
  - eexists. split; [reflexivity|]. by repeat constructor.
  - eexists. split; [reflexivity|]. by repeat constructor.
  - eexists. split; [reflexivity|]. by repeat constructor.
  - intros req. unfold _handle_read_resource.
    destruct (WIDGETS_BY_URI !! _) as [w|]; eexists; (split; [reflexivity|]).
    + split; [done|]. by repeat constructor.
    + split; [done|]. constructor.
  - intros req. unfold _call_tool_request.
    destruct (WIDGETS_BY_ID !! _) as [w|]; cbv zeta.
    + destruct (model_validate _) as [payload|[errors]];
        eexists; (split; [reflexivity|done]).
    + eexists. split; [reflexivity|done].
Qed.

(** ** Totality *)

(** C8. Every handler returns a response of its kind on every input,
    unknown identifiers, unknown URIs and arguments of any shape included;
    none lets an exception escape. *)
Theorem handlers_total :
  (∃ tools, _list_tools = Returns tools)
  ∧ (∃ resources, _list_resources = Returns resources)
  ∧ (∃ templates, _list_resource_templates = Returns templates)
  ∧ (∀ req, ∃ r, _handle_read_resource req = Returns (types.OfReadResourceResult r))
  ∧ (∀ req, ∃ r, _call_tool_request req = Returns (types.OfCallToolResult r))
  ∧ (∀ req, ∃ resp, request_handlers req = Returns resp).
Proof.
  assert (∀ req, ∃ r,
            _handle_read_resource req = Returns (types.OfReadResourceResult r))
    as Hread.
  { intros req. unfold _handle_read_resource.
    destruct (WIDGETS_BY_URI !! _) as [w|]; eexists; reflexivity. }
  assert (∀ req, ∃ r,
            _call_tool_request req = Returns (types.OfCallToolResult r))
    as Hcall.
  { intros req. unfold _call_tool_request.
    destruct (WIDGETS_BY_ID !! _) as [w|]; cbv zeta; [|eexists; reflexivity].
    destruct (model_validate _) as [payload|[errors]]; eexists; reflexivity. }
  split_and!; [eexists; reflexivity..|exact Hread|exact Hcall|].
  intros [| | |req|req]; simpl; [eexists; reflexivity..| |].
  - destruct (Hread req) as [r ->]. by eexists.
  - destruct (Hcall req) as [r ->]. by eexists.
Qed.

(** ** Listings *)

(** C9. [ListTools] and [ListResources] each return exactly one
    descriptor, that of the single catalog entry: the tool is named by
    the identifier, the resource has the template URI and the MIME type
    [text/html+skybridge].  In any session, whatever was requested
    before, every listing request is answered by this same sequence. *)
Theorem listings_single_and_stable :
  widgets = [rick_roll]
  ∧ ∃ t r,
      _list_tools = Returns [t]
      ∧ types.Tool.name t = identifier rick_roll
      ∧ types.Tool.title t = title rick_roll
      ∧ types.Tool.inputSchema t = TOOL_INPUT_SCHEMA
      ∧ types.Tool._meta t = Some (_tool_meta rick_roll)
      ∧ _list_resources = Returns [r]
      ∧ types.Resource.name r = title rick_roll
      ∧ types.Resource.uri r = template_uri rick_roll
      ∧ types.Resource.mimeType r = "text/html+skybridge"
      ∧ types.Resource._meta r = Some (_tool_meta rick_roll)
      ∧ ∀ (session : list request) (i : nat),
          (session !! i = Some ListToolsRequest →
           serve session !! i = Some (Returns (ListToolsResult [t])))
          ∧ (session !! i = Some ListResourcesRequest →
             serve session !! i = Some (Returns (ListResourcesResult [r]))).
Proof.
  split; [reflexivity|]. eexists _, _.
  split_and!; [reflexivity..|].
  intros session i. unfold serve. rewrite list_lookup_fmap.
  split; intros ->; reflexivity.
Qed.

Lemma listings_single_and_stable_witness :
  serve [ListToolsRequest;
         CallToolRequest (types.CallToolRequest.mk
           (types.CallToolRequestParams.mk "rick-roll" None));
         ListResourcesRequest;
         ListToolsRequest] !! 3%nat
  = serve [ListToolsRequest] !! 0%nat.
Proof.
  destruct listings_single_and_stable as (_ & t & r & _ & _ & _ & _ & _ & _ & _ & _ & _ & _ & Hsession).
  rewrite (proj1 (Hsession [ListToolsRequest;
         CallToolRequest (types.CallToolRequest.mk
           (types.CallToolRequestParams.mk "rick-roll" None));
         ListResourcesRequest;
         ListToolsRequest] 3%nat) eq_refl).
  by rewrite (proj1 (Hsession [ListToolsRequest] 0%nat) eq_refl).
Defined.

(** * Further properties *)

(** ** The dict comprehensions of the lookup tables *)

Lemma index_by_snoc (key : RickWidget → string) (ws : list RickWidget)
    (a : RickWidget) :
  index_by key (ws ++ [a]) = <[key a := a]> (index_by key ws).
Proof. unfold index_by. by rewrite foldl_snoc. Qed.

(** X1. A table built by the comprehension [{key(w): w for w in ws}] binds
    a key to the last widget of [ws] that has it, and to nothing when no
    widget has it: on a duplicate key the later widget overwrites the
    earlier one. *)
Theorem index_by_lookup_last (key : RickWidget → string)
    (ws : list RickWidget) (k : string) :
  index_by key ws !! k = last (filter (λ w, key w = k) ws).
Proof.
  induction ws as [|a ws IH] using rev_ind; [done|].
  rewrite index_by_snoc, filter_app, filter_cons, filter_nil.
  destruct (decide (key a = k)) as [<-|Hne].
  - by rewrite lookup_insert_eq, last_snoc.
  - by rewrite lookup_insert_ne, app_nil_r.
Qed.

(** X2. When the keys of the catalog are unique, the table holds a widget
    under a key exactly when the widget is in the catalog and has that
    key. *)
Theorem index_by_lookup_iff (key : RickWidget → string)
    (ws : list RickWidget) (k : string) (w : RickWidget) :
  NoDup (key <$> ws) →
  index_by key ws !! k = Some w ↔ w ∈ ws ∧ key w = k.
Proof.
  intros Hnd. split.
  - apply index_by_lookup_Some.
  - intros [Hw <-]. by apply index_by_lookup_NoDup.
Qed.

Lemma index_by_lookup_iff_witness :
  NoDup (identifier <$> widgets)
  ∧ (index_by identifier widgets !! "rick-roll" = Some rick_roll
     ↔ rick_roll ∈ widgets ∧ identifier rick_roll = "rick-roll").
Proof.
  split; [apply NoDup_singleton|].
  exact (index_by_lookup_iff identifier widgets "rick-roll" rick_roll
           (NoDup_singleton _)).
Defined.

(** X3. When the keys of the catalog are unique, no widget is lost: the
    table has as many entries as the catalog. *)
Theorem index_by_size (key : RickWidget → string) (ws : list RickWidget) :
  NoDup (key <$> ws) → size (index_by key ws) = length ws.
Proof.
  induction ws as [|a ws IH] using rev_ind; intros Hnd; [done|].
  rewrite fmap_app in Hnd. apply NoDup_app in Hnd as (Hws & Hdisj & _).
  rewrite index_by_snoc, length_app, map_size_insert_None.
  - rewrite IH by done. simpl. lia.
  - apply index_by_lookup_None. intros Hin. apply (Hdisj _ Hin).
    apply list_elem_of_here.
Qed.

Lemma index_by_size_witness :
  NoDup (template_uri <$> widgets)
  ∧ size (index_by template_uri widgets) = length widgets.
Proof.
  split; [apply NoDup_singleton|].
  exact (index_by_size template_uri widgets (NoDup_singleton _)).
Defined.

(** X4. The two tables index the same widgets: a widget is found under a
    name in [WIDGETS_BY_ID] exactly when the name is its identifier and
    it is found under its own template URI in [WIDGETS_BY_URI]. *)
Theorem lookup_tables_agree (name : string) (w : RickWidget) :
  WIDGETS_BY_ID !! name = Some w
  ↔ identifier w = name ∧ WIDGETS_BY_URI !! template_uri w = Some w.
Proof.
  split.
  - intros Hid. apply index_by_lookup_Some in Hid as [Hw Hname].
    split; [done|]. by apply WIDGETS_BY_URI_lookup.
  - intros [<- Huri]. apply index_by_lookup_Some in Huri as [Hw _].
    by apply WIDGETS_BY_ID_lookup.
Qed.

(** ** Listings against the read and call handlers *)

Lemma CallTool_unknown (name : string) (arguments : option (dict pyval)) :
  name ∉ identifier <$> widgets →
  CallTool name arguments =
    Returns (types.OfCallToolResult {|
      types.CallToolResult.content :=
        [types.TextContent.mk "text" (Str "Unknown tool")];
      types.CallToolResult.structuredContent := None;
      types.CallToolResult.isError := true;
      types.CallToolResult._meta := None;
    |}).
Proof.
  intros Hname. unfold CallTool, _call_tool_request.
  cbn [types.CallToolRequest.params types.CallToolRequestParams.name].
  by rewrite (WIDGETS_BY_ID_unknown name Hname).
Qed.

(** X5. [CallTool] answers "Unknown tool" exactly for the names that
    [ListTools] does not list, whatever the arguments. *)
Theorem call_tool_unknown_iff_not_listed :
  ∃ tools,
    _list_tools = Returns tools
    ∧ ∀ (name : string) (arguments : option (dict pyval)),
        CallTool name arguments =
          Returns (types.OfCallToolResult {|
            types.CallToolResult.content :=
              [types.TextContent.mk "text" (Str "Unknown tool")];
            types.CallToolResult.structuredContent := None;
            types.CallToolResult.isError := true;
            types.CallToolResult._meta := None;
          |})
        ↔ name ∉ types.Tool.name <$> tools.
Proof.
  eexists. split; [reflexivity|]. intros name arguments.
  rewrite <- list_fmap_compose.
  change (name ∉ (types.Tool.name ∘ _) <$> widgets)
    with (name ∉ identifier <$> widgets).
  split.
  - intros Hcall Hin. apply list_elem_of_fmap in Hin as (w & -> & Hw).
    destruct (model_validate (or_empty arguments)) as [payload|[errors]] eqn:Hmodel.
    + rewrite (CallTool_validated w arguments payload Hw Hmodel) in Hcall.
      discriminate.
    + rewrite (CallTool_rejected w arguments errors Hw Hmodel) in Hcall.
      discriminate.
  - apply CallTool_unknown.
Qed.

(** X6. Every resource that [ListResources] lists can be read: reading
    its URI returns exactly one content entry, with the URI, the MIME
    type and the metadata of the listed descriptor, and no error
    metadata. *)
Theorem listed_resources_readable :
  ∃ resources,
    _list_resources = Returns resources
    ∧ Forall (λ r, ∃ c,
        ReadResource (types.Resource.uri r) =
          Returns (types.OfReadResourceResult {|
            types.ReadResourceResult.contents := [c];
            types.ReadResourceResult._meta := None;
          |})
        ∧ types.TextResourceContents.uri c = types.Resource.uri r
        ∧ types.TextResourceContents.mimeType c = types.Resource.mimeType r
        ∧ types.TextResourceContents._meta c = types.Resource._meta r) resources.
Proof.
  eexists. split; [reflexivity|].
  apply Forall_fmap, Forall_forall. intros w Hw. simpl.
  rewrite (ReadResource_found w Hw). eexists. by split_and!.
Qed.

(** X7. Every tool that [ListTools] lists points, by its
    [openai/outputTemplate] metadata, to a URI that [ReadResource]
    serves; calling the tool without arguments succeeds, repeats the
    same pointer and embeds the markup served under it. *)
Theorem tool_output_template_readable :
  ∃ tools,
    _list_tools = Returns tools
    ∧ Forall (λ t, ∃ uri c r,
        (m ← types.Tool._meta t; dict_get m "openai/outputTemplate")
          = Some (types.MVal (PStr uri))
        ∧ ReadResource uri =
            Returns (types.OfReadResourceResult {|
              types.ReadResourceResult.contents := [c];
              types.ReadResourceResult._meta := None;
            |})
        ∧ CallTool (types.Tool.name t) None = Returns (types.OfCallToolResult r)
        ∧ types.CallToolResult.isError r = false
        ∧ (m ← types.CallToolResult._meta r; dict_get m "openai/outputTemplate")
            = Some (types.MVal (PStr uri))
        ∧ embedded_html (types.CallToolResult._meta r)
            = Some (types.TextResourceContents.text c)) tools.
Proof.
  eexists. split; [reflexivity|].
  apply Forall_fmap, Forall_forall. intros w Hw. simpl.
  exists (template_uri w). eexists _, _.
  split; [reflexivity|]. split; [exact (ReadResource_found w Hw)|].
  split; [exact (CallTool_validated w None {| autoplay := false |} Hw eq_refl)|].
  by split_and!.
Qed.

(** X8. [ListResourceTemplates] mirrors [ListResources]: the same number
    of descriptors in the same order, each template agreeing with its
    resource in name, title, description, MIME type and metadata, and
    carrying the resource's URI as its URI template. *)
Theorem resource_templates_mirror_resources :
  ∃ resources templates,
    _list_resources = Returns resources
    ∧ _list_resource_templates = Returns templates
    ∧ Forall2 (λ r t,
        types.ResourceTemplate.name t = types.Resource.name r
        ∧ types.ResourceTemplate.title t = types.Resource.title r
        ∧ types.ResourceTemplate.uriTemplate t = types.Resource.uri r
        ∧ types.ResourceTemplate.description t = types.Resource.description r
        ∧ types.ResourceTemplate.mimeType t = types.Resource.mimeType r
        ∧ types.ResourceTemplate._meta t = types.Resource._meta r)
      resources templates.
Proof.
  eexists _, _. split; [reflexivity|]. split; [reflexivity|].
  apply Forall2_fmap, Forall_Forall2_diag, Forall_forall.
  intros w _. by split_and!.
Qed.

(** ** What the input model accepts and what it reports *)

Lemma forbid_extra_nil_iff (args : dict pyval) :
  forbid_extra args = [] ↔ Forall (λ kv : string * pyval, kv.1 = "autoplay") args.
Proof.
  split; [|apply forbid_extra_nil].
  unfold forbid_extra. induction args as [|kv d IH]; simpl; [constructor|].
  case_decide as Hk; [|discriminate].
  intros Hd. constructor; [done|by apply IH].
Qed.

Lemma forbid_extra_Forall (args : dict pyval) :
  Forall (λ e, ∃ k, err_loc e = [k] ∧ (k, err_input e) ∈ args
                  ∧ err_type e = extra_forbidden ∧ k ≠ "autoplay")
    (forbid_extra args).
Proof.
  apply Forall_forall. intros e He.
  apply list_elem_of_In, in_flat_map in He as ([k v] & Hin & He).
  simpl in He. case_decide as Hk; [done|].
  destruct He as [<-|[]]. exists k. split_and!; try done.
  by apply list_elem_of_In.
Qed.

Lemma forbid_extra_length (args : dict pyval) :
  (length (forbid_extra args) ≤ length args)%nat
  ∧ (is_Some (dict_get args "autoplay") →
     (S (length (forbid_extra args)) ≤ length args)%nat).
Proof.
  unfold forbid_extra. induction args as [|[k v] d [IH1 IH2]]; simpl.
  - split; [lia|]. by intros [? [=]].
  - destruct (decide (k = "autoplay")) as [->|Hk]; simpl.
    + split; [lia|intros _; lia].
    + split; [lia|]. intros Hget. apply IH2 in Hget. lia.
Qed.

(** X9. The input model accepts an arguments dict, with [autoplay = b],
    exactly when the dict has no key but [autoplay] and either lacks the
    key and [b] is [false], or binds it to a value the boolean validator
    converts to [b]. *)
Theorem model_validate_Returns_iff (args : dict pyval) (b : bool) :
  model_validate args = Returns {| autoplay := b |}
  ↔ Forall (λ kv : string * pyval, kv.1 = "autoplay") args
    ∧ match dict_get args "autoplay" with
      | Some v => validate_bool v = Ok b
      | None => b = false
      end.
Proof.
  rewrite model_validate_unfold, <- forbid_extra_nil_iff.
  unfold validate_autoplay.
  destruct (dict_get args "autoplay") as [v|];
    [destruct (validate_bool v) as [b'|e]|]; simpl;
    destruct (forbid_extra args); naive_solver.
Qed.

(** X10. When the input model raises, it reports at least one and at
    most as many diagnostics as the arguments have entries; each is
    located at one key the caller sent and carries the value sent for it,
    and it is a forbidden-extra diagnostic exactly when that key is not
    [autoplay]. *)
Theorem model_validate_errors_located (args : dict pyval)
    (errors : list ErrorDetails) :
  model_validate args = Raises (ValidationError errors) →
  errors ≠ []
  ∧ (length errors ≤ length args)%nat
  ∧ Forall (λ e, ∃ k, err_loc e = [k] ∧ (k, err_input e) ∈ args
                    ∧ (err_type e = extra_forbidden ↔ k ≠ "autoplay")) errors.
Proof.
  rewrite model_validate_unfold.
  destruct ((validate_autoplay args).2 ++ forbid_extra args)
    as [|e0 errors0] eqn:Herrors; [discriminate|].
  intros [= <-]. split; [done|]. rewrite <- Herrors. clear Herrors.
  destruct (forbid_extra_length args) as [Hlen Hlen'].
  pose proof (forbid_extra_Forall args) as Hextra.
  unfold validate_autoplay.
  destruct (dict_get args "autoplay") as [v|] eqn:Hget;
    [destruct (validate_bool v) as [b|e] eqn:Hv|]; simpl.
  - split; [done|]. eapply Forall_impl; [exact Hextra|]. naive_solver.
  - split; [by apply Hlen'|]. constructor.
    + exists "autoplay". simpl. split_and!; [done| |].
      * by apply dict_get_Some_elem_of.
      * apply validate_bool_Err_type in Hv. naive_solver.
    + eapply Forall_impl; [exact Hextra|]. naive_solver.
  - split; [done|]. eapply Forall_impl; [exact Hextra|]. naive_solver.
Qed.

Lemma model_validate_errors_located_witness :
  model_validate [("autoplay", PStr "maybe"); ("x", PInt 1)]
    = Raises (ValidationError
        [mkErrorDetails bool_parsing ["autoplay"] (PStr "maybe");
         mkErrorDetails extra_forbidden ["x"] (PInt 1)])
  ∧ [mkErrorDetails bool_parsing ["autoplay"] (PStr "maybe");
     mkErrorDetails extra_forbidden ["x"] (PInt 1)] ≠ []
  ∧ (2 ≤ 2)%nat
  ∧ Forall (λ e, ∃ k, err_loc e = [k]
        ∧ (k, err_input e) ∈ [("autoplay", PStr "maybe"); ("x", PInt 1)]
        ∧ (err_type e = extra_forbidden ↔ k ≠ "autoplay"))
      [mkErrorDetails bool_parsing ["autoplay"] (PStr "maybe");
       mkErrorDetails extra_forbidden ["x"] (PInt 1)].
Proof.
  split; [reflexivity|].
  exact (model_validate_errors_located
           [("autoplay", PStr "maybe"); ("x", PInt 1)] _ eq_refl).
Defined.

(** ** The shape of call and read results *)

(** X11. Every [CallTool] result has exactly one content block, of type
    [text]; it is flagged as an error exactly when it has no structured
    content, exactly when it has no metadata; and it embeds widget
    markup exactly when it is not flagged. *)
Theorem call_tool_result_shape (req : types.CallToolRequest.t) :
  ∃ r t,
    _call_tool_request req = Returns (types.OfCallToolResult r)
    ∧ types.CallToolResult.content r = [types.TextContent.mk "text" t]
    ∧ (types.CallToolResult.isError r = true
       ↔ types.CallToolResult.structuredContent r = None)
    ∧ (types.CallToolResult.isError r = true
       ↔ types.CallToolResult._meta r = None)
    ∧ (types.CallToolResult.isError r = false
       ↔ is_Some (embedded_html (types.CallToolResult._meta r))).
Proof.
  unfold _call_tool_request.
  destruct (WIDGETS_BY_ID !! _) as [w|]; cbv zeta;
    [destruct (model_validate _) as [payload|[errors]]|];
    eexists _, _; (split; [reflexivity|]); simpl;
    split_and!; try done; split; try done; try discriminate;
    try (by intros [? [=]]); by eexists.
Qed.

(** X12. The metadata of a successful call is the embedded widget
    followed by the entries of [_tool_meta] for the widget, in their
    order, without the annotations: the hints written out in the call
    handler are those the listings attach. *)
Theorem call_tool_meta_is_tool_meta (w : RickWidget)
    (arguments : option (dict pyval)) (payload : RickToolInput) :
  w ∈ widgets → model_validate (or_empty arguments) = Returns payload →
  ∃ r e,
    CallTool (identifier w) arguments = Returns (types.OfCallToolResult r)
    ∧ types.CallToolResult._meta r =
        Some (("openai.com/widget", types.MDump e)
              :: filter (λ kv, kv.1 ≠ "annotations") (_tool_meta w)).
Proof.
  intros Hw Hmodel. rewrite (CallTool_validated w arguments payload Hw Hmodel).
  eexists _, _. split; reflexivity.
Qed.

Lemma call_tool_meta_is_tool_meta_witness :
  rick_roll ∈ widgets
  ∧ model_validate (or_empty None) = Returns {| autoplay := false |}
  ∧ ∃ r e,
      CallTool "rick-roll" None = Returns (types.OfCallToolResult r)
      ∧ types.CallToolResult._meta r =
          Some (("openai.com/widget", types.MDump e)
                :: filter (λ kv, kv.1 ≠ "annotations") (_tool_meta rick_roll)).
Proof.
  assert (rick_roll ∈ widgets) as Hw by apply list_elem_of_here.
  split_and!; [done|reflexivity|].
  exact (call_tool_meta_is_tool_meta rick_roll None {| autoplay := false |}
           Hw eq_refl).
Defined.

(** X13. A successful call depends on its arguments only through the
    validated [autoplay]: two calls for one widget whose arguments both
    validate have the same content, metadata and error flag, and are
    the same result when the validated booleans agree. *)
Theorem call_tool_depends_on_autoplay_only (w : RickWidget)
    (arguments1 arguments2 : option (dict pyval)) (p1 p2 : RickToolInput) :
  w ∈ widgets →
  model_validate (or_empty arguments1) = Returns p1 →
  model_validate (or_empty arguments2) = Returns p2 →
  ∃ r1 r2,
    CallTool (identifier w) arguments1 = Returns (types.OfCallToolResult r1)
    ∧ CallTool (identifier w) arguments2 = Returns (types.OfCallToolResult r2)
    ∧ types.CallToolResult.content r1 = types.CallToolResult.content r2
    ∧ types.CallToolResult._meta r1 = types.CallToolResult._meta r2
    ∧ types.CallToolResult.isError r1 = types.CallToolResult.isError r2
    ∧ (autoplay p1 = autoplay p2 → r1 = r2).
Proof.
  intros Hw H1 H2.
  rewrite (CallTool_validated w arguments1 p1 Hw H1).
  rewrite (CallTool_validated w arguments2 p2 Hw H2).
  eexists _, _. split_and!; try reflexivity. by intros ->.
Qed.

Lemma call_tool_depends_on_autoplay_only_witness :
  rick_roll ∈ widgets
  ∧ model_validate (or_empty (Some [("autoplay", PStr "yes")]))
      = Returns {| autoplay := true |}
  ∧ model_validate (or_empty (Some [("autoplay", PBool true)]))
      = Returns {| autoplay := true |}
  ∧ ∃ r1 r2,
      CallTool "rick-roll" (Some [("autoplay", PStr "yes")])
        = Returns (types.OfCallToolResult r1)
      ∧ CallTool "rick-roll" (Some [("autoplay", PBool true)])
          = Returns (types.OfCallToolResult r2)
      ∧ types.CallToolResult.content r1 = types.CallToolResult.content r2
      ∧ types.CallToolResult._meta r1 = types.CallToolResult._meta r2
      ∧ types.CallToolResult.isError r1 = types.CallToolResult.isError r2
      ∧ (true = true → r1 = r2).
Proof.
  assert (rick_roll ∈ widgets) as Hw by apply list_elem_of_here.
  split_and!; [done|reflexivity|reflexivity|].
  exact (call_tool_depends_on_autoplay_only rick_roll
           (Some [("autoplay", PStr "yes")]) (Some [("autoplay", PBool true)])
           {| autoplay := true |} {| autoplay := true |} Hw eq_refl eq_refl).
Defined.

(** X14. Every [ReadResource] result has at most one content entry; its
    content list is empty exactly when the requested URI is not a
    template URI of the catalog, exactly when its metadata carry the
    "Unknown resource" error; and an entry it returns has the requested
    URI and the MIME type [text/html+skybridge]. *)
Theorem read_resource_result_shape (req : types.ReadResourceRequest.t) :
  ∃ r,
    _handle_read_resource req = Returns (types.OfReadResourceResult r)
    ∧ (length (types.ReadResourceResult.contents r) ≤ 1)%nat
    ∧ (types.ReadResourceResult.contents r = []
       ↔ types.AnyUrl.str (types.ReadResourceRequestParams.uri
                             (types.ReadResourceRequest.params req))
           ∉ template_uri <$> widgets)
    ∧ (types.ReadResourceResult.contents r = []
       ↔ (m ← types.ReadResourceResult._meta r; dict_get m "error")
           = Some (types.MVal (PStr "Unknown resource")))
    ∧ Forall (λ c,
        types.TextResourceContents.uri c
          = types.AnyUrl.str (types.ReadResourceRequestParams.uri
                                (types.ReadResourceRequest.params req))
        ∧ types.TextResourceContents.mimeType c = "text/html+skybridge")
      (types.ReadResourceResult.contents r).
Proof.
  unfold _handle_read_resource.
  destruct (WIDGETS_BY_URI !! _) as [w|] eqn:Hlookup;
    eexists; (split; [reflexivity|]); simpl.
  - apply index_by_lookup_Some in Hlookup as [Hw Huri].
    split_and!; [lia| | |by repeat constructor].
    + split; [done|]. intros Hnot. destruct Hnot. rewrite <- Huri.
      exact (list_elem_of_fmap_2 template_uri widgets w Hw).
    + split; done.
  - apply index_by_lookup_None in Hlookup.
    split_and!; [lia|done|done|constructor].
Qed.

(** ** Reading a call result back *)

Lemma model_validate_Raises_nonempty (args : dict pyval)
    (errors : list ErrorDetails) :
  model_validate args = Raises (ValidationError errors) → errors ≠ [].
Proof.
  rewrite model_validate_unfold.
  destruct (_ ++ _) as [|e errors0]; [discriminate|]. by intros [= <-].
Qed.

(** X15. A call result that is not flagged as an error comes from a
    catalogued widget with the requested name and from arguments the
    input model accepts: it carries that widget's response text and
    markup and the validated [autoplay]. *)
Theorem call_tool_success_inv (name : string)
    (arguments : option (dict pyval)) (r : types.CallToolResult.t) :
  CallTool name arguments = Returns (types.OfCallToolResult r) →
  types.CallToolResult.isError r = false →
  ∃ w payload,
    w ∈ widgets ∧ identifier w = name
    ∧ model_validate (or_empty arguments) = Returns payload
    ∧ types.CallToolResult.structuredContent r
        = Some [("autoplay", PBool (autoplay payload))]
    ∧ types.CallToolResult.content r
        = [types.TextContent.mk "text" (Str (response_text w))]
    ∧ embedded_html (types.CallToolResult._meta r) = Some (html w).
Proof.
  intros Hcall Herr.
  destruct (decide (name ∈ identifier <$> widgets)) as [Hin|Hnotin].
  - apply list_elem_of_fmap in Hin as (w & -> & Hw).
    destruct (model_validate (or_empty arguments)) as [payload|[errors]] eqn:Hmodel.
    + rewrite (CallTool_validated w arguments payload Hw Hmodel) in Hcall.
      injection Hcall as <-. exists w, payload. by split_and!.
    + rewrite (CallTool_rejected w arguments errors Hw Hmodel) in Hcall.
      injection Hcall as <-. discriminate.
  - rewrite (CallTool_unknown name arguments Hnotin) in Hcall.
    injection Hcall as <-. discriminate.
Qed.

Lemma call_tool_success_inv_witness :
  ∃ r,
    CallTool "rick-roll" (Some [("autoplay", PInt 1)])
      = Returns (types.OfCallToolResult r)
    ∧ types.CallToolResult.isError r = false
    ∧ ∃ w payload,
        w ∈ widgets ∧ identifier w = "rick-roll"
        ∧ model_validate (or_empty (Some [("autoplay", PInt 1)])) = Returns payload
        ∧ types.CallToolResult.structuredContent r
            = Some [("autoplay", PBool (autoplay payload))]
        ∧ types.CallToolResult.content r
            = [types.TextContent.mk "text" (Str (response_text w))]
        ∧ embedded_html (types.CallToolResult._meta r) = Some (html w).
Proof.
  assert (rick_roll ∈ widgets) as Hw by apply list_elem_of_here.
  pose proof (CallTool_validated rick_roll (Some [("autoplay", PInt 1)])
                {| autoplay := true |} Hw eq_refl) as Hcall.
  eexists. split; [exact Hcall|]. split; [reflexivity|].
  exact (call_tool_success_inv "rick-roll" (Some [("autoplay", PInt 1)]) _
           Hcall eq_refl).
Defined.

(** X16. A call result flagged as an error has one of two causes, told
    apart by its text: the name is not in the catalog and the text is
    "Unknown tool", or the name is in the catalog, the input model
    raised at least one diagnostic and the text is "Validation error: "
    followed by those diagnostics. *)
Theorem call_tool_error_inv (name : string)
    (arguments : option (dict pyval)) (r : types.CallToolResult.t) :
  CallTool name arguments = Returns (types.OfCallToolResult r) →
  types.CallToolResult.isError r = true →
  ((name ∉ identifier <$> widgets)
   ∧ types.CallToolResult.content r
       = [types.TextContent.mk "text" (Str "Unknown tool")])
  ∨ (name ∈ identifier <$> widgets
     ∧ ∃ errors,
         errors ≠ []
         ∧ model_validate (or_empty arguments) = Raises (ValidationError errors)
         ∧ types.CallToolResult.content r
             = [types.TextContent.mk "text" (FStr "Validation error: " errors)]).
Proof.
  intros Hcall Herr.
  destruct (decide (name ∈ identifier <$> widgets)) as [Hin|Hnotin].
  - right. split; [done|].
    apply list_elem_of_fmap in Hin as (w & -> & Hw).
    destruct (model_validate (or_empty arguments)) as [payload|[errors]] eqn:Hmodel.
    + rewrite (CallTool_validated w arguments payload Hw Hmodel) in Hcall.
      injection Hcall as <-. discriminate.
    + rewrite (CallTool_rejected w arguments errors Hw Hmodel) in Hcall.
      injection Hcall as <-. exists errors. split_and!; [|done..].
      by apply (model_validate_Raises_nonempty (or_empty arguments)).
  - left. split; [done|].
    rewrite (CallTool_unknown name arguments Hnotin) in Hcall.
    by injection Hcall as <-.
Qed.

Lemma call_tool_error_inv_witness :
  ∃ r,
    CallTool "rick-roll" (Some [("autoplay", PNone)])
      = Returns (types.OfCallToolResult r)
    ∧ types.CallToolResult.isError r = true
    ∧ ((("rick-roll" ∉ identifier <$> widgets)
        ∧ types.CallToolResult.content r
            = [types.TextContent.mk "text" (Str "Unknown tool")])
       ∨ ("rick-roll" ∈ identifier <$> widgets
          ∧ ∃ errors,
              errors ≠ []
              ∧ model_validate (or_empty (Some [("autoplay", PNone)]))
                  = Raises (ValidationError errors)
              ∧ types.CallToolResult.content r
                  = [types.TextContent.mk "text" (FStr "Validation error: " errors)])).
Proof.
  assert (rick_roll ∈ widgets) as Hw by apply list_elem_of_here.
  pose proof (CallTool_rejected rick_roll (Some [("autoplay", PNone)])
                [mkErrorDetails bool_type ["autoplay"] PNone] Hw eq_refl) as Hcall.
  eexists. split; [exact Hcall|]. split; [reflexivity|].
  exact (call_tool_error_inv "rick-roll" (Some [("autoplay", PNone)]) _
           Hcall eq_refl).
Defined.
